(** * Wave particle field: the vertex and fragment shaders and the hover tracker

    A shallow embedding of [WaveParticles] (the GLSL vertex shader, the GLSL
    fragment shader and the React component's per-frame callback and pointer
    handlers) together with the properties of the displacement, shading and
    interaction-state computations.

    Numbers.  GLSL [float] and JavaScript [number] values are modelled as
    real numbers: every arithmetic operator of the source is the operator
    of the same name on [R], in the order the source writes it.  Rounding,
    infinities and NaN are outside the model.  The one operation whose
    result the GLSL specification leaves undefined on reals, a division
    whose divisor is zero, is modelled explicitly ([GLSL.fdiv]).  The hover
    smoothing, which runs in JavaScript, is replayed on IEEE binary64
    values as well ([Binary64]). *)

From Stdlib Require Import Reals Lra Lia List Bool.
From Stdlib Require PrimFloat.
Import ListNotations.

Open Scope R_scope.

(** ** GLSL vectors, matrices and built-in functions *)

Module GLSL.

Record vec2 : Type := Vec2 { v2x : R; v2y : R }.
Record vec3 : Type := Vec3 { v3x : R; v3y : R; v3z : R }.
Record vec4 : Type := Vec4 { v4x : R; v4y : R; v4z : R; v4w : R }.

(** A [mat4] by rows; [m * v] is the usual matrix-vector product. *)
Record mat4 : Type := Mat4 { row0 : vec4; row1 : vec4; row2 : vec4; row3 : vec4 }.

Definition dot4 (a b : vec4) : R :=
  v4x a * v4x b + v4y a * v4y b + v4z a * v4z b + v4w a * v4w b.

Definition mulMV (m : mat4) (v : vec4) : vec4 :=
  Vec4 (dot4 (row0 m) v) (dot4 (row1 m) v) (dot4 (row2 m) v) (dot4 (row3 m) v).

Definition identity : mat4 :=
  Mat4 (Vec4 1 0 0 0) (Vec4 0 1 0 0) (Vec4 0 0 1 0) (Vec4 0 0 0 1).

(** [vec4(p, 1.0)] for a [vec3] p. *)
Definition vec4_of (p : vec3) (w : R) : vec4 := Vec4 (v3x p) (v3y p) (v3z p) w.

(** [v.xy] of a [vec4]. *)
Definition xy (v : vec4) : vec2 := Vec2 (v4x v) (v4y v).

(** Component-wise product and difference of [vec2]. *)
Definition mul2 (a b : vec2) : vec2 := Vec2 (v2x a * v2x b) (v2y a * v2y b).
Definition sub2 (a b : vec2) : vec2 := Vec2 (v2x a - v2x b) (v2y a - v2y b).

(** [vec2(s)] with one scalar argument fills both components. *)
Definition splat2 (s : R) : vec2 := Vec2 s s.

Definition length (v : vec2) : R := sqrt (v2x v * v2x v + v2y v * v2y v).
Definition distance (a b : vec2) : R := length (sub2 a b).

(** [max(a, b)]. *)
Definition max (a b : R) : R := Rmax a b.

(** Division of floats.  The result for a zero divisor is undefined in
    GLSL; [None] stands for that undefined value. *)
Definition fdiv (a b : R) : option R :=
  if Req_dec_T b 0 then None else Some (a / b).

(** [dot(a, b)] of two [vec2]. *)
Definition dot2 (a b : vec2) : R := v2x a * v2x b + v2y a * v2y b.

(** [floor(x)], the largest integer not above [x], and
    [fract(x) = x - floor(x)]. *)
Definition floor (x : R) : R := IZR (Int_part x).
Definition fract (x : R) : R := x - floor x.

End GLSL.

Import GLSL.

(** ** The uniforms shared by the two shaders and the component *)

Record Uniforms : Type := mkUniforms {
  uTime : R;
  uColor : vec3;
  uSpeed : R;
  uNoiseDensity : R;
  uNoiseStrength : R;
  uFrequency : R;
  uAmplitude : R;
  uMouse : vec2;
  uHoverState : R
}.

(** ** Vertex shader *)

Module VertexShader.

(** The helper [random], declared by the shader and not called by [main]:
    [fract(sin(dot(st.xy, vec2(12.9898,78.233))) * 43758.5453123)]. *)
Definition random (st : vec2) : R :=
  fract (sin (dot2 (Vec2 (v2x st) (v2y st)) (Vec2 12.9898 78.233)) * 43758.5453123).

(** Per-vertex attributes and the transforms three.js binds. *)
Record Inputs : Type := mkInputs {
  position : vec3;
  uv : vec2;
  modelMatrix : mat4;
  viewMatrix : mat4;
  projectionMatrix : mat4
}.

Record Outputs : Type := mkOutputs {
  gl_Position : vec4;
  gl_PointSize : option R;
  vUv : vec2;
  vElevation : R;
  vDistance : R
}.

(** [modelPosition] on entry: [modelMatrix * vec4(position, 1.0)]. *)
Definition modelPosition0 (i : Inputs) : vec4 :=
  mulMV (modelMatrix i) (vec4_of (position i) 1.0).

(** The two summed sine waves:
    [sin(x * uFrequency + uTime * uSpeed) * uAmplitude] and then
    [+= sin(y * uFrequency * 0.5 + uTime * uSpeed * 0.5) * uAmplitude * 0.5]. *)
Definition elevation (u : Uniforms) (mp : vec4) : R :=
  sin (v4x mp * uFrequency u + uTime u * uSpeed u) * uAmplitude u
  + sin (v4y mp * uFrequency u * 0.5 + uTime u * uSpeed u * 0.5) * uAmplitude u * 0.5.

(** [uMouse * vec2(15.0, 10.0) - modelPosition.xy]. *)
Definition interactionVec (u : Uniforms) (mp : vec4) : vec2 :=
  sub2 (mul2 (uMouse u) (Vec2 15.0 10.0)) (xy mp).

Definition dist (u : Uniforms) (mp : vec4) : R := length (interactionVec u mp).

(** [max(0.0, 1.0 - dist / 3.0)]; 3.0 is the radius of influence. *)
Definition influence (d : R) : R := max 0.0 (1.0 - d / 3.0).

(** [sin(dist * 3.0 - uTime * 5.0) * influence * 2.0 * uHoverState]. *)
Definition distortion (u : Uniforms) (d : R) : R :=
  sin (d * 3.0 - uTime u * 5.0) * influence d * 2.0 * uHoverState u.

(** [3.0 * (15.0 / -viewPosition.z)]. *)
Definition pointSize (viewZ : R) : option R :=
  option_map (fun q => 3.0 * q) (fdiv 15.0 (- viewZ)).

(** [modelPosition.z += elevation + distortion;], the other components
    untouched. *)
Definition displace (u : Uniforms) (mp : vec4) : vec4 :=
  let e := elevation u mp in
  let d := dist u mp in
  Vec4 (v4x mp) (v4y mp) (v4z mp + (e + distortion u d)) (v4w mp).

Definition main (u : Uniforms) (i : Inputs) : Outputs :=
  let mp := modelPosition0 i in
  let d := dist u mp in
  let mp' := displace u mp in
  let viewPosition := mulMV (viewMatrix i) mp' in
  let projectedPosition := mulMV (projectionMatrix i) viewPosition in
  {| gl_Position := projectedPosition;
     gl_PointSize := pointSize (v4z viewPosition);
     vUv := uv i;
     vElevation := v4z mp';
     vDistance := d |}.

End VertexShader.

(** ** Fragment shader *)

Module FragmentShader.

(** [distance(gl_PointCoord, vec2(0.5))]. *)
Definition distanceToCenter (gl_PointCoord : vec2) : R :=
  distance gl_PointCoord (splat2 0.5).

(** The test of [if (distanceToCenter > 0.5) discard;]. *)
Definition discards (gl_PointCoord : vec2) : bool :=
  if Rgt_dec (distanceToCenter gl_PointCoord) 0.5 then true else false.

(** [0.8 + vElevation * 0.1]. *)
Definition alpha (vElevation : R) : R := 0.8 + vElevation * 0.1.

(** [main]: [None] is a discarded fragment, [Some c] writes
    [gl_FragColor = c]. *)
Definition main (u : Uniforms) (vElevation : R) (gl_PointCoord : vec2)
  : option vec4 :=
  if discards gl_PointCoord then None
  else Some (Vec4 (v3x (uColor u)) (v3y (uColor u)) (v3z (uColor u))
                  (alpha vElevation)).

End FragmentShader.

(** ** The component: uniforms, frame callback and pointer handlers *)

Module WaveParticles.

(** [THREE.MathUtils.lerp(x, y, t)] of three.js: [(1 - t) * x + t * y]. *)
Definition lerp (x y t : R) : R := (1 - t) * x + t * y.

(** The uniforms object built once by [useMemo]. *)
Definition uniforms (color : vec3) : Uniforms :=
  {| uTime := 0;
     uColor := color;
     uSpeed := 0.8;
     uNoiseDensity := 1.5;
     uNoiseStrength := 0.2;
     uFrequency := 0.5;
     uAmplitude := 1.2;
     uMouse := Vec2 0 0;
     uHoverState := 0.0 |}.

(** The default prop [color = '#ffffff']. *)
Definition white : vec3 := Vec3 1 1 1.

(** What the frame callback reads from the host's [state]. *)
Record FrameState : Type := mkFrameState {
  elapsedTime : R;       (* state.clock.getElapsedTime() *)
  pointer : vec2         (* state.pointer *)
}.

(** The component instance: the [hovered] React state, whether
    [materialRef.current] is set, and the material's uniform values. *)
Record Component : Type := mkComponent {
  hovered : bool;
  materialRef : bool;
  material : Uniforms
}.

Definition set_uTime (v : R) (u : Uniforms) : Uniforms :=
  mkUniforms v (uColor u) (uSpeed u) (uNoiseDensity u) (uNoiseStrength u)
             (uFrequency u) (uAmplitude u) (uMouse u) (uHoverState u).

Definition set_uHoverState (v : R) (u : Uniforms) : Uniforms :=
  mkUniforms (uTime u) (uColor u) (uSpeed u) (uNoiseDensity u)
             (uNoiseStrength u) (uFrequency u) (uAmplitude u) (uMouse u) v.

Definition set_uMouse (v : vec2) (u : Uniforms) : Uniforms :=
  mkUniforms (uTime u) (uColor u) (uSpeed u) (uNoiseDensity u)
             (uNoiseStrength u) (uFrequency u) (uAmplitude u) v
             (uHoverState u).

Definition setHovered (b : bool) (c : Component) : Component :=
  mkComponent b (materialRef c) (material c).

(** The callback given to [useFrame]. *)
Definition useFrame (c : Component) (state : FrameState) : Component :=
  if negb (materialRef c) then c
  else
    let u1 := set_uTime (elapsedTime state) (material c) in
    let targetHover := if hovered c then 1.0 else 0.0 in
    let u2 := set_uHoverState (lerp (uHoverState u1) targetHover 0.1) u1 in
    let u3 :=
      if hovered c
      then set_uMouse (Vec2 (v2x (pointer state)) (v2y (pointer state))) u2
      else u2 in
    mkComponent (hovered c) (materialRef c) u3.

Definition onPointerOver (c : Component) : Component := setHovered true c.
Definition onPointerOut (c : Component) : Component := setHovered false c.
Definition onPointerMove (c : Component) : Component := setHovered true c.

(** What can happen to a mounted component: React attaches the material
    to [materialRef], the host delivers a pointer event, or the host
    renders a frame. *)
Inductive Event : Type :=
| Attach
| PointerOver
| PointerOut
| PointerMove
| Frame (state : FrameState).

Definition step (c : Component) (e : Event) : Component :=
  match e with
  | Attach => mkComponent (hovered c) true (material c)
  | PointerOver => onPointerOver c
  | PointerOut => onPointerOut c
  | PointerMove => onPointerMove c
  | Frame state => useFrame c state
  end.

Definition run (c : Component) (es : list Event) : Component :=
  fold_left step es c.

(** The first render: [useState(false)], no material yet, fresh uniforms. *)
Definition initial (color : vec3) : Component :=
  mkComponent false false (uniforms color).

(** [n] successive frames with no pointer event in between; [host k] is
    what the host supplies on the [k]-th of them. *)
Fixpoint ticks (n : nat) (host : nat -> FrameState) (c : Component) : Component :=
  match n with
  | O => c
  | S k => useFrame (ticks k host c) (host k)
  end.

Definition hoverIntensity (c : Component) : R := uHoverState (material c).
Definition pointerPosition (c : Component) : vec2 := uMouse (material c).

(** The uniforms that only the construction writes. *)
Definition waveParameters (u : Uniforms) : vec3 * R * R * R * R * R :=
  (uColor u, uSpeed u, uNoiseDensity u, uNoiseStrength u, uFrequency u, uAmplitude u).

(** The value the hover intensity is smoothed towards. *)
Definition targetHover (c : Component) : R := if hovered c then 1.0 else 0.0.

(** A pointer sample within the normalised range of the host. *)
Definition normalised (p : vec2) : Prop :=
  -1 <= v2x p <= 1 /\ -1 <= v2y p <= 1.

End WaveParticles.

(** ** The scene the component places the points in *)

Module Scene.

(** three.js builds the world matrix of an object from its [rotation];
    for [rotation = [theta, 0, 0]] with no translation, scale or parent
    transform it is the rotation about the x axis ([Matrix4.makeRotationX]). *)
Definition rotationX (theta : R) : mat4 :=
  Mat4 (Vec4 1 0 0 0)
       (Vec4 0 (cos theta) (- sin theta) 0)
       (Vec4 0 (sin theta) (cos theta) 0)
       (Vec4 0 0 0 1).

(** [rotation={[-Math.PI / 3, 0, 0]}]. *)
Definition pointsRotationX : R := - PI / 3.
Definition pointsModelMatrix : mat4 := rotationX pointsRotationX.

(** [<planeGeometry args={[35, 20, 128, 128]} />]: width and height of
    the plane, centred on the origin of the object's own frame, at z = 0. *)
Definition planeWidth : R := 35.
Definition planeHeight : R := 20.

(** The vertex shader's inputs for the plane point (x, y, 0). *)
Definition planeInputs (x y : R) (uv0 : vec2) (view projection : mat4)
  : VertexShader.Inputs :=
  VertexShader.mkInputs (Vec3 x y 0) uv0 pointsModelMatrix view projection.

(** A time at which the first wave is in its trough on the plane's left
    edge: [-(planeWidth/2) * 0.5 + t * 0.8 = - PI / 2]. *)
Definition troughTime : R := (planeWidth / 2 * 0.5 - PI / 2) / 0.8.

End Scene.

(** ** The hover smoothing on binary64 numbers *)

Module Binary64.
Import PrimFloat.

(** [THREE.MathUtils.lerp] on JavaScript numbers. *)
Definition lerp (x y t : float) : float := ((1 - t) * x + t * y)%float.

(** The [uHoverState] update of the frame callback. *)
#[warnings="-inexact-float"]
Definition hoverUpdate (hovered : bool) (h : float) : float :=
  let targetHover := if hovered then 1.0%float else 0.0%float in
  lerp h targetHover 0.1%float.

Fixpoint hoverUpdates (n : nat) (hovered : bool) (h : float) : float :=
  match n with
  | O => h
  | S k => hoverUpdate hovered (hoverUpdates k hovered h)
  end.

(** [lo <= v <= hi]. *)
Definition between (lo hi v : float) : bool :=
  (PrimFloat.leb lo v && PrimFloat.leb v hi)%bool.

End Binary64.

(** ** The specification's formulas, as the specification words them *)

Module Spec.

(** [d = |mouse*(15,10) - (x,y)|]. *)
Definition d (mouse : vec2) (x y : R) : R :=
  sqrt ((v2x mouse * 15 - x) * (v2x mouse * 15 - x)
        + (v2y mouse * 10 - y) * (v2y mouse * 10 - y)).

(** [z' = amplitude*sin(x*frequency + t*speed)
         + 0.5*amplitude*sin(y*frequency*0.5 + t*speed*0.5)
         + sin(d*3.0 - t*5.0) * max(0, 1 - d/3.0) * 2.0 * h]. *)
Definition z' (amplitude frequency speed t : R) (mouse : vec2) (h x y : R) : R :=
  amplitude * sin (x * frequency + t * speed)
  + 0.5 * amplitude * sin (y * frequency * 0.5 + t * speed * 0.5)
  + sin (d mouse x y * 3.0 - t * 5.0)
    * Rmax 0 (1 - d mouse x y / 3.0) * 2.0 * h.

(** [clamp(v, lo, hi)]: [v] limited to the interval from [lo] to [hi]. *)
Definition clamp (v lo hi : R) : R := Rmin (Rmax v lo) hi.

(** [influence(d) = clamp(1 - d/R, 0, 1)] with [R = 3.0]. *)
Definition R_influence : R := 3.0.
Definition influence (dd : R) : R := clamp (1 - dd / R_influence) 0 1.

End Spec.

(** ** Concrete inputs used in the examples *)

Module Samples.
Import VertexShader.

(** A vertex at (a, b, 0) drawn with identity transforms. *)
Definition plain_inputs (a b : R) : Inputs :=
  mkInputs (Vec3 a b 0) (Vec2 0 0) identity identity identity.

(** The uniforms as the component creates them. *)
Definition default_uniforms : Uniforms :=
  WaveParticles.uniforms WaveParticles.white.

(** Hovering at full intensity with the pointer at (7 PI / 90, PI / 5),
    at time 0. *)
Definition hot_uniforms : Uniforms :=
  WaveParticles.set_uHoverState 1
    (WaveParticles.set_uMouse (Vec2 (7 * PI / 90) (PI / 5)) default_uniforms).

(** A component whose material is attached, with the given hover flag and
    hover intensity. *)
Definition attached (h : bool) (v : R) : WaveParticles.Component :=
  WaveParticles.mkComponent h true (WaveParticles.set_uHoverState v default_uniforms).

(** A host that reports time [INR k] and a pointer at (0.5, 0.5) on the
    [k]-th frame. *)
Definition sample_host (k : nat) : WaveParticles.FrameState :=
  WaveParticles.mkFrameState (INR k) (Vec2 0.5 0.5).

End Samples.

(** ** Properties of the vertex shader *)

Module VertexShaderFacts.
Import VertexShader Samples.

Lemma influence_nonneg (d : R) : 0 <= influence d.
Proof.
  unfold influence, max, Rmax.
  destruct (Rle_dec 0.0 (1.0 - d / 3.0)); lra.
Qed.

Lemma influence_le_1 (d : R) : 0 <= d -> influence d <= 1.
Proof.
  intros Hd. unfold influence, max, Rmax.
  destruct (Rle_dec 0.0 (1.0 - d / 3.0)); lra.
Qed.

Lemma length_nonneg (v : vec2) : 0 <= length v.
Proof. unfold length. apply sqrt_pos. Qed.

Lemma dist_nonneg (u : Uniforms) (mp : vec4) : 0 <= dist u mp.
Proof. apply length_nonneg. Qed.

Lemma dist_spec (u : Uniforms) (mp : vec4) :
  dist u mp = Spec.d (uMouse u) (v4x mp) (v4y mp).
Proof.
  unfold dist, interactionVec, length, Spec.d; cbn.
  f_equal. lra.
Qed.

(** [|a * b| <= b] when [|a| <= 1] and [0 <= b]. *)
Lemma abs_scaled (a b : R) : -1 <= a <= 1 -> 0 <= b -> - b <= a * b <= b.
Proof. intros Ha Hb. split; nra. Qed.

Lemma elevation_bound (u : Uniforms) (mp : vec4) :
  0 <= uAmplitude u ->
  - (1.5 * uAmplitude u) <= elevation u mp <= 1.5 * uAmplitude u.
Proof.
  intros HA. unfold elevation.
  pose proof (SIN_bound (v4x mp * uFrequency u + uTime u * uSpeed u)) as H1.
  pose proof (SIN_bound (v4y mp * uFrequency u * 0.5 + uTime u * uSpeed u * 0.5)) as H2.
  pose proof (abs_scaled _ _ H1 HA) as B1.
  pose proof (abs_scaled _ _ H2 HA) as B2.
  lra.
Qed.

Lemma distortion_bound (u : Uniforms) (d : R) :
  0 <= d -> 0 <= uHoverState u <= 1 ->
  - 2.0 <= distortion u d <= 2.0.
Proof.
  intros Hd Hh. unfold distortion.
  pose proof (SIN_bound (d * 3.0 - uTime u * 5.0)) as Hs.
  pose proof (influence_nonneg d) as I0.
  pose proof (influence_le_1 d Hd) as I1.
  assert (Hp : 0 <= influence d * uHoverState u <= 1) by (split; nra).
  pose proof (abs_scaled _ _ Hs (proj1 Hp)) as B.
  nra.
Qed.

Lemma distortion_gated (u : Uniforms) (d : R) :
  uHoverState u = 0 -> distortion u d = 0.
Proof. intros Hh. unfold distortion. rewrite Hh. ring. Qed.

(** The value passed on as [vElevation] is the displaced z. *)
Lemma main_vElevation (u : Uniforms) (i : Inputs) :
  vElevation (main u i) = v4z (displace u (modelPosition0 i)).
Proof. reflexivity. Qed.

Lemma displace_z (u : Uniforms) (mp : vec4) :
  v4z (displace u mp) = v4z mp + (elevation u mp + distortion u (dist u mp)).
Proof. reflexivity. Qed.

(** C1.  For a vertex whose world base position is (x, y, 0), the
    displacement stage returns (x, y, z') with z' the specification's
    formula in the elapsed time, the wave parameters, the pointer and the
    hover intensity; x and y (and w) are unchanged, and z' is the value
    handed to the fragment stage. *)
Theorem displacement_formula (u : Uniforms) (i : Inputs) (x y w : R) :
  modelPosition0 i = Vec4 x y 0 w ->
  displace u (modelPosition0 i)
  = Vec4 x y
         (Spec.z' (uAmplitude u) (uFrequency u) (uSpeed u) (uTime u)
                  (uMouse u) (uHoverState u) x y)
         w
  /\ vElevation (main u i)
     = Spec.z' (uAmplitude u) (uFrequency u) (uSpeed u) (uTime u)
               (uMouse u) (uHoverState u) x y.
Proof.
  intros Hmp. rewrite main_vElevation. rewrite Hmp.
  assert (Hz : v4z (displace u (Vec4 x y 0 w))
               = Spec.z' (uAmplitude u) (uFrequency u) (uSpeed u) (uTime u)
                         (uMouse u) (uHoverState u) x y).
  { rewrite displace_z. unfold Spec.z', distortion, influence, max, elevation.
    rewrite dist_spec. cbn [v4x v4y v4z].
    replace 0.0 with 0 by lra. replace 1.0 with 1 by lra.
    ring. }
  split; [| exact Hz].
  unfold displace in *. cbn [v4x v4y v4z v4w] in *. f_equal. exact Hz.
Qed.

(** C2.  With a non-negative amplitude the base wave stays within
    1.5 * amplitude in magnitude, and with the hover intensity in [0,1]
    the whole vertical displacement stays within 1.5 * amplitude + 2.0. *)
Theorem elevation_bounded (u : Uniforms) (x y w : R) :
  0 <= uAmplitude u ->
  0 <= uHoverState u <= 1 ->
  Rabs (elevation u (Vec4 x y 0 w)) <= 1.5 * uAmplitude u
  /\ (uHoverState u = 0 ->
      v4z (displace u (Vec4 x y 0 w)) = elevation u (Vec4 x y 0 w))
  /\ Rabs (v4z (displace u (Vec4 x y 0 w))) <= uAmplitude u * 1.5 + 2.0.
Proof.
  intros HA Hh.
  pose proof (elevation_bound u (Vec4 x y 0 w) HA) as He.
  pose proof (distortion_bound u _ (dist_nonneg u (Vec4 x y 0 w)) Hh) as Hd.
  rewrite displace_z. cbn [v4z].
  repeat split.
  - apply Rabs_le. lra.
  - intros H0. rewrite (distortion_gated u _ H0). lra.
  - apply Rabs_le. lra.
Qed.

(** C6.  With the hover intensity at 0 the ripple term is exactly 0 at
    every distance, time and pointer position, and the displaced z of a
    vertex based at z = 0 is the base-wave elevation alone. *)
Theorem ripple_gated (u : Uniforms) (x y w : R) :
  uHoverState u = 0 ->
  (forall d : R, distortion u d = 0)
  /\ v4z (displace u (Vec4 x y 0 w)) = elevation u (Vec4 x y 0 w).
Proof.
  intros H0. split.
  - intros d. now apply distortion_gated.
  - rewrite displace_z, (distortion_gated u _ H0). cbn [v4z]. lra.
Qed.

(** C7.  For every distance d >= 0 the influence is clamp(1 - d/R, 0, 1)
    with R = 3.0: 1 at d = 0, 0 from d = R on, and 1 - d/R in between. *)
Theorem influence_falloff (d : R) :
  0 <= d ->
  influence d = Spec.influence d
  /\ influence 0 = 1
  /\ (Spec.R_influence <= d -> influence d = 0)
  /\ (d <= Spec.R_influence -> influence d = 1 - d / Spec.R_influence).
Proof.
  intros Hd.
  unfold Spec.influence, Spec.R_influence, Spec.clamp, influence, max, Rmin, Rmax.
  repeat split.
  - destruct (Rle_dec 0.0 (1.0 - d / 3.0)), (Rle_dec (1 - d / 3.0) 0);
      match goal with |- context [Rle_dec ?a ?b] => destruct (Rle_dec a b) end;
      lra.
  - destruct (Rle_dec 0.0 (1.0 - 0 / 3.0)); lra.
  - intros H3. destruct (Rle_dec 0.0 (1.0 - d / 3.0)); lra.
  - intros H3. destruct (Rle_dec 0.0 (1.0 - d / 3.0)); lra.
Qed.

Lemma plain_modelPosition0 (a b : R) :
  modelPosition0 (plain_inputs a b) = Vec4 a b 0 1.
Proof.
  unfold modelPosition0, plain_inputs, mulMV, dot4, vec4_of, identity; cbn.
  f_equal; lra.
Qed.

Lemma displacement_formula_witness :
  modelPosition0 (plain_inputs 1 2) = Vec4 1 2 0 1
  /\ (displace default_uniforms (modelPosition0 (plain_inputs 1 2))
      = Vec4 1 2
          (Spec.z' (uAmplitude default_uniforms) (uFrequency default_uniforms)
                   (uSpeed default_uniforms) (uTime default_uniforms)
                   (uMouse default_uniforms) (uHoverState default_uniforms) 1 2)
          1
      /\ vElevation (main default_uniforms (plain_inputs 1 2))
         = Spec.z' (uAmplitude default_uniforms) (uFrequency default_uniforms)
                   (uSpeed default_uniforms) (uTime default_uniforms)
                   (uMouse default_uniforms) (uHoverState default_uniforms) 1 2).
Proof.
  split.
  - apply plain_modelPosition0.
  - apply (displacement_formula default_uniforms (plain_inputs 1 2) 1 2 1).
    apply plain_modelPosition0.
Defined.

Lemma elevation_bounded_witness :
  Rabs (elevation default_uniforms (Vec4 0 0 0 1)) <= 1.5 * uAmplitude default_uniforms
  /\ (uHoverState default_uniforms = 0 ->
      v4z (displace default_uniforms (Vec4 0 0 0 1))
      = elevation default_uniforms (Vec4 0 0 0 1))
  /\ Rabs (v4z (displace default_uniforms (Vec4 0 0 0 1)))
     <= uAmplitude default_uniforms * 1.5 + 2.0.
Proof.
  apply (elevation_bounded default_uniforms 0 0 1); cbn; lra.
Defined.

Lemma ripple_gated_witness :
  (forall d : R, distortion default_uniforms d = 0)
  /\ v4z (displace default_uniforms (Vec4 3 4 0 1))
     = elevation default_uniforms (Vec4 3 4 0 1).
Proof.
  apply (ripple_gated default_uniforms 3 4 1); cbn; lra.
Defined.

Lemma influence_falloff_witness :
  influence 1.5 = Spec.influence 1.5
  /\ influence 0 = 1
  /\ (Spec.R_influence <= 1.5 -> influence 1.5 = 0)
  /\ (1.5 <= Spec.R_influence -> influence 1.5 = 1 - 1.5 / Spec.R_influence).
Proof.
  apply (influence_falloff 1.5); lra.
Defined.

(** Point size at the reference distance: depth -15 gives size 3. *)
Example pointSize_reference : pointSize (-15) = Some 3.0.
Proof.
  unfold pointSize, fdiv.
  destruct (Req_dec_T (- -15) 0) as [E | _]; [lra |].
  unfold option_map. f_equal.
  replace (- -15) with 15 by lra. lra.
Qed.

Lemma main_gl_PointSize (u : Uniforms) (i : Inputs) :
  gl_PointSize (main u i)
  = pointSize (v4z (mulMV (viewMatrix i) (displace u (modelPosition0 i)))).
Proof. reflexivity. Qed.

Lemma sin_at_0 (a : R) : a = 0 -> sin a = 0.
Proof. intros ->. apply sin_0. Qed.

Lemma sin_at_PI2 (a : R) : a = PI / 2 -> sin a = 1.
Proof. intros ->. apply sin_PI2. Qed.

(** C5, as stated, fails: the divisor is [- viewPosition.z] itself, so a
    view-space depth of exactly 0 divides by zero; the vertex at the
    origin under identity transforms, at time 0 and not hovered, is such a
    vertex. *)
Lemma pointSize_divides_by_zero :
  pointSize 0 = None
  /\ gl_PointSize (main default_uniforms (plain_inputs 0 0)) = None.
Proof.
  assert (H0 : pointSize 0 = None).
  { unfold pointSize, fdiv. destruct (Req_dec_T (- 0) 0) as [_ | N]; [reflexivity | lra]. }
  split; [exact H0 |].
  rewrite main_gl_PointSize, plain_modelPosition0.
  rewrite <- H0. f_equal.
  unfold displace, elevation, distortion, default_uniforms, WaveParticles.uniforms,
    plain_inputs, mulMV, dot4, identity.
  cbn [viewMatrix row0 row1 row2 row3 v4x v4y v4z v4w
       uTime uSpeed uFrequency uAmplitude uHoverState uMouse].
  rewrite (sin_at_0 (0 * 0.5 + 0 * 0.8)) by lra.
  rewrite (sin_at_0 (0 * 0.5 * 0.5 + 0 * 0.8 * 0.5)) by lra.
  lra.
Qed.

(** C5, amended.  The depth is not clamped: for every non-zero view-space
    depth the size is 3.0 * (15.0 / -depth) and no division by zero takes
    place. *)
Theorem pointSize_nonzero_depth (viewZ : R) :
  viewZ <> 0 ->
  pointSize viewZ = Some (3.0 * (15.0 / - viewZ))
  /\ pointSize viewZ <> None.
Proof.
  intros Hz.
  assert (E : pointSize viewZ = Some (3.0 * (15.0 / - viewZ))).
  { unfold pointSize, fdiv.
    destruct (Req_dec_T (- viewZ) 0) as [E | _]; [lra | reflexivity]. }
  split; [exact E | rewrite E; discriminate].
Qed.

Lemma pointSize_nonzero_depth_witness :
  pointSize (-15) = Some (3.0 * (15.0 / - -15))
  /\ pointSize (-15) <> None.
Proof.
  apply (pointSize_nonzero_depth (-15)). lra.
Defined.

End VertexShaderFacts.

(** ** Properties of the fragment shader *)

Module FragmentShaderFacts.
Import VertexShader FragmentShader Samples VertexShaderFacts.

Lemma length_on_axis (a b r : R) :
  0 <= r -> a = r -> b = 0 -> sqrt (a * a + b * b) = r.
Proof.
  intros Hr -> ->. replace (r * r + 0 * 0) with (r * r) by ring.
  now apply sqrt_square.
Qed.

Lemma hot_dist : dist hot_uniforms (Vec4 PI (2 * PI) 0 1) = PI / 6.
Proof.
  unfold dist, interactionVec, length, sub2, mul2, xy, hot_uniforms,
    WaveParticles.set_uHoverState, WaveParticles.set_uMouse.
  cbn [uMouse v2x v2y v4x v4y].
  apply length_on_axis; pose proof PI_RGT_0; lra.
Qed.

(** With the pointer a sixth of PI away from a vertex on the crest of
    both waves, at full hover intensity, the alpha exceeds 1. *)
Lemma hot_alpha : 1 < alpha (v4z (displace hot_uniforms (Vec4 PI (2 * PI) 0 1))).
Proof.
  rewrite displace_z, hot_dist.
  unfold alpha, elevation, distortion, influence, max.
  unfold hot_uniforms, WaveParticles.set_uHoverState, WaveParticles.set_uMouse,
    default_uniforms, WaveParticles.uniforms.
  cbn [uTime uSpeed uFrequency uAmplitude uHoverState uMouse v4x v4y v4z].
  rewrite (sin_at_PI2 (PI * 0.5 + 0 * 0.8)) by lra.
  rewrite (sin_at_PI2 (2 * PI * 0.5 * 0.5 + 0 * 0.8 * 0.5)) by lra.
  rewrite (sin_at_PI2 (PI / 6 * 3.0 - 0 * 5.0)) by lra.
  pose proof PI_4 as HP.
  pose proof (Rmax_r 0.0 (1.0 - PI / 6 / 3.0)) as HM.
  lra.
Qed.

(** C10.  With amplitude 1.2, for a vertex based at z = 0 and any hover
    intensity in [0,1], the fragment alpha 0.8 + elevation * 0.1 lies in
    [0.42, 1.18] and is strictly positive, whatever the time, pointer and
    vertex; and there are such inputs, with the pointer in [-1,1]^2, at
    which it exceeds 1.0. *)
Theorem alpha_range :
  (forall (u : Uniforms) (i : Inputs),
      uAmplitude u = 1.2 ->
      0 <= uHoverState u <= 1 ->
      v4z (modelPosition0 i) = 0 ->
      0.42 <= alpha (vElevation (VertexShader.main u i)) <= 1.18
      /\ 0 < alpha (vElevation (VertexShader.main u i)))
  /\ (exists (u : Uniforms) (i : Inputs),
         uAmplitude u = 1.2
         /\ uAmplitude u = uAmplitude default_uniforms
         /\ 0 <= uHoverState u <= 1
         /\ -1 <= v2x (uMouse u) <= 1 /\ -1 <= v2y (uMouse u) <= 1
         /\ v4z (modelPosition0 i) = 0
         /\ 1.0 < alpha (vElevation (VertexShader.main u i))).
Proof.
  split.
  - intros u i HA Hh Hz.
    rewrite main_vElevation, displace_z, Hz.
    assert (HA0 : 0 <= uAmplitude u) by lra.
    pose proof (elevation_bound u (modelPosition0 i) HA0) as He.
    pose proof (distortion_bound u _ (dist_nonneg u (modelPosition0 i)) Hh) as Hd.
    unfold alpha. lra.
  - exists hot_uniforms, (plain_inputs PI (2 * PI)).
    pose proof PI_4 as HP. pose proof PI_RGT_0 as HP0.
    rewrite main_vElevation, plain_modelPosition0.
    cbn [uAmplitude uHoverState uMouse v2x v2y v4z hot_uniforms default_uniforms
         WaveParticles.set_uHoverState WaveParticles.set_uMouse
         WaveParticles.uniforms].
    repeat split; try lra.
    pose proof hot_alpha. lra.
Qed.

Lemma alpha_range_witness :
  0.42 <= alpha (vElevation (VertexShader.main default_uniforms (plain_inputs 1 2))) <= 1.18
  /\ 0 < alpha (vElevation (VertexShader.main default_uniforms (plain_inputs 1 2))).
Proof.
  apply (proj1 alpha_range default_uniforms (plain_inputs 1 2)).
  - cbn. lra.
  - cbn. lra.
  - rewrite plain_modelPosition0. reflexivity.
Defined.

Lemma distanceToCenter_edge : distanceToCenter (Vec2 1 0.5) = 0.5.
Proof.
  unfold distanceToCenter, distance, length, sub2, splat2.
  cbn [v2x v2y]. apply length_on_axis; lra.
Qed.

Lemma distanceToCenter_inside : distanceToCenter (Vec2 0.99 0.5) = 0.49.
Proof.
  unfold distanceToCenter, distance, length, sub2, splat2.
  cbn [v2x v2y]. apply length_on_axis; lra.
Qed.

Lemma main_discarded (u : Uniforms) (e : R) (p : vec2) :
  FragmentShader.main u e p = None <-> distanceToCenter p > 0.5.
Proof.
  unfold FragmentShader.main, discards.
  destruct (Rgt_dec (distanceToCenter p) 0.5) as [G | G]; split;
    intros H; try assumption; try reflexivity; try discriminate.
  contradiction.
Qed.

(** C4, as stated, fails at its boundary: the fragment at the middle of the
    point's right edge is at distance exactly 0.5 from the centre, and it
    is drawn. *)
Lemma boundary_fragment_drawn :
  distanceToCenter (Vec2 1 0.5) = 0.5
  /\ FragmentShader.main default_uniforms 0 (Vec2 1 0.5)
     = Some (Vec4 1 1 1 (alpha 0)).
Proof.
  split; [apply distanceToCenter_edge |].
  unfold FragmentShader.main, discards.
  destruct (Rgt_dec (distanceToCenter (Vec2 1 0.5)) 0.5) as [G | _].
  - rewrite distanceToCenter_edge in G. lra.
  - reflexivity.
Qed.

(** C4, amended.  A fragment is discarded exactly when its distance from
    the centre is greater than 0.5; so a fragment at distance exactly 0.5
    is drawn, and so is one at distance 0.49. *)
Theorem discard_beyond_half (u : Uniforms) (e : R) (p : vec2) :
  (FragmentShader.main u e p = None <-> distanceToCenter p > 0.5)
  /\ (distanceToCenter p = 0.5 -> FragmentShader.main u e p <> None)
  /\ (distanceToCenter p = 0.49 -> FragmentShader.main u e p <> None).
Proof.
  pose proof (main_discarded u e p) as [H1 H2].
  repeat split; auto; intros E N; apply H1 in N; lra.
Qed.

Lemma discard_beyond_half_witness :
  FragmentShader.main default_uniforms 0 (Vec2 1 0.5) <> None
  /\ FragmentShader.main default_uniforms 0 (Vec2 0.99 0.5) <> None.
Proof.
  split.
  - apply (proj1 (proj2 (discard_beyond_half default_uniforms 0 (Vec2 1 0.5)))).
    apply distanceToCenter_edge.
  - apply (proj2 (proj2 (discard_beyond_half default_uniforms 0 (Vec2 0.99 0.5)))).
    apply distanceToCenter_inside.
Defined.

End FragmentShaderFacts.

(** ** Properties of the hover tracker *)

Module WaveParticlesFacts.
Import WaveParticles Samples.

Lemma lerp_toward_0 (x : R) : 0 <= x <= 1 -> 0 <= lerp x 0.0 0.1 <= x.
Proof. intros H. unfold lerp. lra. Qed.

Lemma lerp_toward_1 (x : R) : 0 <= x <= 1 -> x <= lerp x 1.0 0.1 <= 1.
Proof. intros H. unfold lerp. lra. Qed.

Lemma useFrame_hoverIntensity (c : Component) (st : FrameState) :
  hoverIntensity (useFrame c st)
  = if materialRef c
    then lerp (hoverIntensity c) (if hovered c then 1.0 else 0.0) 0.1
    else hoverIntensity c.
Proof.
  unfold useFrame, hoverIntensity.
  destruct (materialRef c), (hovered c); reflexivity.
Qed.

Lemma useFrame_flags (c : Component) (st : FrameState) :
  hovered (useFrame c st) = hovered c
  /\ materialRef (useFrame c st) = materialRef c.
Proof.
  unfold useFrame. destruct (materialRef c) eqn:E; cbn; auto.
Qed.

Lemma useFrame_range (c : Component) (st : FrameState) :
  0 <= hoverIntensity c <= 1 -> 0 <= hoverIntensity (useFrame c st) <= 1.
Proof.
  intros H. rewrite useFrame_hoverIntensity.
  destruct (materialRef c); [| exact H].
  destruct (hovered c).
  - pose proof (lerp_toward_1 _ H). lra.
  - pose proof (lerp_toward_0 _ H). lra.
Qed.

Lemma step_range (c : Component) (e : Event) :
  0 <= hoverIntensity c <= 1 -> 0 <= hoverIntensity (step c e) <= 1.
Proof.
  destruct e; cbn [step]; try (intros H; exact H).
  apply useFrame_range.
Qed.

Lemma run_range (es : list Event) (c : Component) :
  0 <= hoverIntensity c <= 1 -> 0 <= hoverIntensity (run c es) <= 1.
Proof.
  revert c. induction es as [| e es IH]; intros c H; cbn.
  - exact H.
  - apply IH. now apply step_range.
Qed.

Lemma ticks_flags (n : nat) (host : nat -> FrameState) (c : Component) :
  hovered (ticks n host c) = hovered c
  /\ materialRef (ticks n host c) = materialRef c.
Proof.
  induction n as [| n [IH1 IH2]]; cbn [ticks]; [auto |].
  destruct (useFrame_flags (ticks n host c) (host n)) as [F1 F2].
  split; congruence.
Qed.

Lemma ticks_range (n : nat) (host : nat -> FrameState) (c : Component) :
  0 <= hoverIntensity c <= 1 -> 0 <= hoverIntensity (ticks n host c) <= 1.
Proof.
  intros H. induction n as [| n IH]; cbn [ticks]; [exact H |].
  now apply useFrame_range.
Qed.

(** One more frame never lowers the intensity while hovered and never
    raises it while not hovered. *)
Lemma useFrame_monotone (c : Component) (st : FrameState) :
  0 <= hoverIntensity c <= 1 ->
  if hovered c
  then hoverIntensity c <= hoverIntensity (useFrame c st)
  else hoverIntensity (useFrame c st) <= hoverIntensity c.
Proof.
  intros H. rewrite useFrame_hoverIntensity.
  destruct (hovered c), (materialRef c); try lra.
  - pose proof (lerp_toward_1 _ H). lra.
  - pose proof (lerp_toward_0 _ H). lra.
Qed.

(** C3.  The hover intensity is 0 at construction and lies in [0,1] after
    any sequence of attachments, pointer events and frames; from any such
    state, over successive frames with no pointer event in between, it
    never decreases while hovered and never increases while not hovered. *)
Theorem hoverIntensity_invariant
        (color : vec3) (es : list Event) (host : nat -> FrameState) (n : nat) :
  hoverIntensity (initial color) = 0
  /\ 0 <= hoverIntensity (run (initial color) es) <= 1
  /\ (if hovered (run (initial color) es)
      then hoverIntensity (ticks n host (run (initial color) es))
           <= hoverIntensity (ticks (S n) host (run (initial color) es))
      else hoverIntensity (ticks (S n) host (run (initial color) es))
           <= hoverIntensity (ticks n host (run (initial color) es))).
Proof.
  assert (H0 : hoverIntensity (initial color) = 0) by (cbn; lra).
  assert (HR : 0 <= hoverIntensity (run (initial color) es) <= 1).
  { apply run_range. rewrite H0. lra. }
  repeat split; try tauto.
  set (c := run (initial color) es) in *.
  pose proof (ticks_range n host c HR) as Hn.
  pose proof (useFrame_monotone (ticks n host c) (host n) Hn) as HM.
  destruct (ticks_flags n host c) as [F _]. rewrite F in HM.
  cbn [ticks]. exact HM.
Qed.

Lemma ticks_decay (n : nat) (host : nat -> FrameState) (c : Component) :
  materialRef c = true -> hovered c = false ->
  hoverIntensity (ticks n host c) = hoverIntensity c * 0.9 ^ n.
Proof.
  intros HM HH. induction n as [| n IH]; cbn [ticks pow].
  - lra.
  - destruct (ticks_flags n host c) as [F1 F2].
    rewrite useFrame_hoverIntensity, F1, F2, HM, HH, IH.
    unfold lerp. lra.
Qed.

(** C8.  Hovered at full intensity, then a leave event: ten frames later
    the intensity is 1.0 * 0.9^10, which is within 0.001 of 0.349. *)
Theorem fade_after_ten_ticks (c0 : Component) (host : nat -> FrameState) :
  materialRef c0 = true ->
  hovered c0 = true ->
  hoverIntensity c0 = 1.0 ->
  hoverIntensity (ticks 10 host (onPointerOut c0)) = 1.0 * 0.9 ^ 10
  /\ Rabs (hoverIntensity (ticks 10 host (onPointerOut c0)) - 0.349) <= 0.001.
Proof.
  intros HM HH H1.
  assert (E : hoverIntensity (ticks 10 host (onPointerOut c0)) = 1.0 * 0.9 ^ 10).
  { rewrite ticks_decay by (cbn; auto).
    change (hoverIntensity (onPointerOut c0)) with (hoverIntensity c0).
    rewrite H1. reflexivity. }
  split; [exact E |].
  rewrite E. apply Rabs_le. cbn [pow]. lra.
Qed.

Lemma fade_after_ten_ticks_witness :
  hoverIntensity (ticks 10 sample_host (onPointerOut (attached true 1.0)))
  = 1.0 * 0.9 ^ 10
  /\ Rabs (hoverIntensity (ticks 10 sample_host (onPointerOut (attached true 1.0)))
           - 0.349) <= 0.001.
Proof.
  apply (fade_after_ten_ticks (attached true 1.0) sample_host); reflexivity.
Defined.

Lemma useFrame_not_hovered_pointer (c : Component) (st : FrameState) :
  hovered c = false -> pointerPosition (useFrame c st) = pointerPosition c.
Proof.
  intros HH. unfold useFrame, pointerPosition.
  rewrite HH. destruct (materialRef c); reflexivity.
Qed.

Lemma frames_not_hovered (states : list FrameState) (c : Component) :
  hovered c = false ->
  hovered (run c (map Frame states)) = false
  /\ pointerPosition (run c (map Frame states)) = pointerPosition c.
Proof.
  revert c. induction states as [| st states IH]; intros c HH.
  - cbn. auto.
  - change (run c (map Frame (st :: states)))
      with (run (useFrame c st) (map Frame states)).
    destruct (useFrame_flags c st) as [F _].
    destruct (IH (useFrame c st)) as [I1 I2]; [congruence |].
    split; [exact I1 |].
    rewrite I2. now apply useFrame_not_hovered_pointer.
Qed.

(** C9.  A leave event clears the hover flag and does not touch the pointer
    position; through any number of frames that follow it, whatever the
    host reports, the flag stays cleared and the pointer position stays
    the one held at the leave event. *)
Theorem leave_retains_pointer (c : Component) (states : list FrameState) :
  hovered (onPointerOut c) = false
  /\ pointerPosition (onPointerOut c) = pointerPosition c
  /\ hovered (run c (PointerOut :: map Frame states)) = false
  /\ pointerPosition (run c (PointerOut :: map Frame states))
     = pointerPosition c.
Proof.
  split; [reflexivity |]. split; [reflexivity |].
  change (run c (PointerOut :: map Frame states))
    with (run (onPointerOut c) (map Frame states)).
  apply (frames_not_hovered states (onPointerOut c)). reflexivity.
Qed.

(** While hovered, a frame does overwrite the pointer position: the
    retention above is specific to the not-hovered state. *)
Example hovered_frame_moves_pointer :
  pointerPosition (useFrame (attached true 0) (sample_host 0)) = Vec2 0.5 0.5.
Proof. reflexivity. Qed.

End WaveParticlesFacts.

(** ** The hover smoothing on binary64 numbers, evaluated *)

Module Binary64Facts.
Import PrimFloat.

(** Scenario C replayed on binary64 numbers: the rounded result is still
    within 0.001 of 0.349. *)
#[warnings="-inexact-float"]
Example fade_after_ten_ticks_binary64 :
  Binary64.between 0.348%float 0.350%float
                   (Binary64.hoverUpdates 10 false 1.0%float) = true.
Proof. vm_compute. reflexivity. Qed.

(** On binary64 numbers too, the intensity starting from 0 stays within
    [0,1] over a thousand hovered frames and then a thousand not-hovered
    ones. *)
Example hover_range_binary64 :
  Binary64.between 0%float 1%float
    (Binary64.hoverUpdates 1000 false
       (Binary64.hoverUpdates 1000 true 0%float)) = true.
Proof. vm_compute. reflexivity. Qed.

End Binary64Facts.

(** ** Further properties of the vertex shader *)

Module VertexShaderMore.
Import VertexShader Samples VertexShaderFacts.

Lemma floor_spec (x : R) : floor x <= x < floor x + 1.
Proof.
  unfold floor. destruct (base_Int_part x) as [H1 H2]. lra.
Qed.

(** The pseudo-random helper returns a value in [0, 1). *)
Theorem random_range (st : vec2) : 0 <= random st < 1.
Proof.
  unfold random, fract.
  pose proof (floor_spec
    (sin (dot2 (Vec2 (v2x st) (v2y st)) (Vec2 12.9898 78.233)) * 43758.5453123)).
  lra.
Qed.

Lemma length_ge_abs_x (v : vec2) : Rabs (v2x v) <= length v.
Proof.
  unfold length. rewrite <- sqrt_Rsqr_abs. apply sqrt_le_1.
  - apply Rle_0_sqr.
  - pose proof (Rle_0_sqr (v2x v)). pose proof (Rle_0_sqr (v2y v)).
    unfold Rsqr in *. lra.
  - pose proof (Rle_0_sqr (v2y v)). unfold Rsqr in *. lra.
Qed.

Lemma influence_outside (d : R) : 3 <= d -> influence d = 0.
Proof.
  intros Hd. unfold influence, max, Rmax.
  destruct (Rle_dec 0.0 (1.0 - d / 3.0)); lra.
Qed.

(** A vertex three units or more away from the pointer's target gets no
    ripple at all, whatever the hover intensity and the time: its z moves
    by the base wave only. *)
Theorem ripple_outside_radius (u : Uniforms) (mp : vec4) :
  3 <= dist u mp ->
  distortion u (dist u mp) = 0
  /\ v4z (displace u mp) = v4z mp + elevation u mp.
Proof.
  intros Hd.
  assert (E : distortion u (dist u mp) = 0).
  { unfold distortion. rewrite (influence_outside _ Hd). ring. }
  split; [exact E |]. rewrite displace_z, E. ring.
Qed.

Lemma far_vertex_dist : 3 <= dist default_uniforms (Vec4 5 0 0 1).
Proof.
  pose proof (length_ge_abs_x (interactionVec default_uniforms (Vec4 5 0 0 1))) as H.
  unfold dist.
  cbn [interactionVec sub2 mul2 xy v2x v2y v4x uMouse
       default_uniforms WaveParticles.uniforms] in H.
  revert H. unfold Rabs.
  destruct (Rcase_abs (0 * 15.0 - 5)); intros; lra.
Qed.

Lemma ripple_outside_radius_witness :
  distortion default_uniforms (dist default_uniforms (Vec4 5 0 0 1)) = 0
  /\ v4z (displace default_uniforms (Vec4 5 0 0 1))
     = v4z (Vec4 5 0 0 1) + elevation default_uniforms (Vec4 5 0 0 1).
Proof.
  apply (ripple_outside_radius default_uniforms (Vec4 5 0 0 1)).
  apply far_vertex_dist.
Defined.

(** The ripple is never larger than twice the influence times the hover
    intensity: it fades with the distance as the influence does. *)
Theorem ripple_bound (u : Uniforms) (d : R) :
  0 <= uHoverState u ->
  Rabs (distortion u d) <= 2 * influence d * uHoverState u.
Proof.
  intros Hh. unfold distortion.
  pose proof (SIN_bound (d * 3.0 - uTime u * 5.0)) as Hs.
  pose proof (influence_nonneg d) as I0.
  assert (Hp : 0 <= influence d * uHoverState u) by nra.
  pose proof (abs_scaled _ _ Hs Hp) as B.
  apply Rabs_le. nra.
Qed.

Lemma ripple_bound_witness :
  Rabs (distortion hot_uniforms 1) <= 2 * influence 1 * uHoverState hot_uniforms.
Proof.
  apply (ripple_bound hot_uniforms 1). cbn. lra.
Defined.

(** With the pointer in [-1,1]^2 its target has |x| <= 15, so a vertex on
    the plane's left or right edge (|x| >= 17.5) is at least 2.5 away from
    it and its ripple stays within a third, for any hover intensity in
    [0,1]. *)
Theorem ripple_weak_on_side_edges (u : Uniforms) (mp : vec4) :
  -1 <= v2x (uMouse u) <= 1 ->
  0 <= uHoverState u <= 1 ->
  Scene.planeWidth / 2 <= Rabs (v4x mp) ->
  2.5 <= dist u mp
  /\ Rabs (distortion u (dist u mp)) <= 1 / 3.
Proof.
  intros Hm Hh Hx. unfold Scene.planeWidth in Hx.
  assert (Hd : 2.5 <= dist u mp).
  { pose proof (length_ge_abs_x (interactionVec u mp)) as HL.
    unfold dist. cbn [interactionVec sub2 mul2 xy v2x v2y] in HL.
    revert HL Hx. unfold Rabs.
    destruct (Rcase_abs (v4x mp)), (Rcase_abs (v2x (uMouse u) * 15.0 - v4x mp));
      intros; lra. }
  split; [exact Hd |].
  assert (HI : influence (dist u mp) <= 1 / 6).
  { unfold influence, max, Rmax.
    destruct (Rle_dec 0.0 (1.0 - dist u mp / 3.0)); lra. }
  pose proof (influence_nonneg (dist u mp)) as I0.
  pose proof (SIN_bound (dist u mp * 3.0 - uTime u * 5.0)) as Hs.
  assert (Hp : 0 <= influence (dist u mp) * uHoverState u <= 1 / 6) by (split; nra).
  pose proof (abs_scaled _ _ Hs (proj1 Hp)) as B.
  unfold distortion. apply Rabs_le. nra.
Qed.

Lemma ripple_weak_on_side_edges_witness :
  2.5 <= dist default_uniforms (Vec4 17.5 0 0 1)
  /\ Rabs (distortion default_uniforms (dist default_uniforms (Vec4 17.5 0 0 1)))
     <= 1 / 3.
Proof.
  apply (ripple_weak_on_side_edges default_uniforms (Vec4 17.5 0 0 1)).
  - cbn. lra.
  - cbn. lra.
  - unfold Scene.planeWidth. cbn [v4x]. rewrite Rabs_pos_eq; lra.
Defined.

Lemma sin_shift (a b : R) (k : nat) : b = a + 2 * INR k * PI -> sin b = sin a.
Proof. intros ->. apply sin_period. Qed.

Lemma sin_shift_back (a b : R) (k : nat) : b = a - 2 * INR k * PI -> sin b = sin a.
Proof.
  intros ->. rewrite <- (sin_period (a - 2 * INR k * PI) k).
  f_equal. ring.
Qed.

(** The base wave repeats in space: moving a vertex by 2 PI / frequency
    along x, or by 4 PI / frequency along y, leaves its elevation as it
    was. *)
Theorem elevation_space_periodic (u : Uniforms) (x y z w : R) :
  uFrequency u <> 0 ->
  elevation u (Vec4 (x + 2 * PI / uFrequency u) y z w) = elevation u (Vec4 x y z w)
  /\ elevation u (Vec4 x (y + 4 * PI / uFrequency u) z w) = elevation u (Vec4 x y z w).
Proof.
  intros Hf. unfold elevation. cbn [v4x v4y].
  assert (E : forall c : R, c * PI / uFrequency u * uFrequency u = c * PI).
  { intros c. unfold Rdiv. rewrite Rmult_assoc, Rinv_l by exact Hf. ring. }
  split.
  - f_equal. f_equal.
    apply (sin_shift _ _ 1). cbn [INR].
    rewrite Rmult_plus_distr_r, E. ring.
  - f_equal. f_equal. f_equal.
    apply (sin_shift _ _ 1). cbn [INR].
    rewrite Rmult_plus_distr_r, E. lra.
Qed.

Lemma elevation_space_periodic_witness :
  elevation default_uniforms
            (Vec4 (1 + 2 * PI / uFrequency default_uniforms) 2 0 1)
  = elevation default_uniforms (Vec4 1 2 0 1)
  /\ elevation default_uniforms
               (Vec4 1 (2 + 4 * PI / uFrequency default_uniforms) 0 1)
     = elevation default_uniforms (Vec4 1 2 0 1).
Proof.
  apply (elevation_space_periodic default_uniforms 1 2 0 1). cbn. lra.
Defined.

(** With the speed the component sets (0.8), and the pointer and hover
    intensity held, the whole displacement repeats every 10 PI seconds:
    four periods of the first wave, two of the second and twenty-five of
    the ripple. *)
Theorem displace_time_periodic (u : Uniforms) (mp : vec4) :
  uSpeed u = 0.8 ->
  displace (WaveParticles.set_uTime (uTime u + 10 * PI) u) mp = displace u mp.
Proof.
  intros Hs.
  unfold displace, elevation, distortion, dist, interactionVec,
    WaveParticles.set_uTime.
  cbn [uTime uSpeed uFrequency uAmplitude uMouse uHoverState].
  rewrite Hs.
  rewrite (sin_shift (v4x mp * uFrequency u + uTime u * 0.8)
                     (v4x mp * uFrequency u + (uTime u + 10 * PI) * 0.8) 4)
    by (cbn [INR]; lra).
  rewrite (sin_shift (v4y mp * uFrequency u * 0.5 + uTime u * 0.8 * 0.5)
                     (v4y mp * uFrequency u * 0.5 + (uTime u + 10 * PI) * 0.8 * 0.5) 2)
    by (cbn [INR]; lra).
  set (d := length (sub2 (mul2 (uMouse u) (Vec2 15.0 10.0)) (xy mp))).
  rewrite (sin_shift_back (d * 3.0 - uTime u * 5.0)
                          (d * 3.0 - (uTime u + 10 * PI) * 5.0) 25).
  - reflexivity.
  - replace (INR 25) with 25 by (simpl; lra). lra.
Qed.

Lemma displace_time_periodic_witness :
  displace (WaveParticles.set_uTime (uTime hot_uniforms + 10 * PI) hot_uniforms)
           (Vec4 1 2 0 1)
  = displace hot_uniforms (Vec4 1 2 0 1).
Proof.
  apply (displace_time_periodic hot_uniforms (Vec4 1 2 0 1)). reflexivity.
Defined.

(** The noise density, the noise strength and the colour have no effect
    on anything the vertex shader outputs. *)
Lemma main_ignores_noise_and_colour
        (u : Uniforms) (color : vec3) (density strength : R) (i : Inputs) :
  VertexShader.main
    (mkUniforms (uTime u) color (uSpeed u) density strength
                (uFrequency u) (uAmplitude u) (uMouse u) (uHoverState u)) i
  = VertexShader.main u i.
Proof. reflexivity. Qed.

(** In front of the camera the point size is positive and shrinks with
    the distance: of two vertices at negative view depth, the farther one
    gets the smaller point. *)
Theorem pointSize_attenuation (z1 z2 : R) :
  z1 < z2 -> z2 < 0 ->
  exists s1 s2 : R,
    pointSize z1 = Some s1 /\ pointSize z2 = Some s2 /\ 0 < s1 < s2.
Proof.
  intros H12 H2.
  exists (3.0 * (15.0 / - z1)), (3.0 * (15.0 / - z2)).
  assert (P1 : 0 < / - z1) by (apply Rinv_0_lt_compat; lra).
  assert (P12 : / - z1 < / - z2).
  { apply Rinv_lt_contravar; [nra | lra]. }
  unfold pointSize, fdiv.
  destruct (Req_dec_T (- z1) 0) as [E | _]; [lra |].
  destruct (Req_dec_T (- z2) 0) as [E | _]; [lra |].
  repeat split; unfold Rdiv; nra.
Qed.

Lemma pointSize_attenuation_witness :
  exists s1 s2 : R,
    pointSize (-30) = Some s1 /\ pointSize (-15) = Some s2 /\ 0 < s1 < s2.
Proof.
  apply (pointSize_attenuation (-30) (-15)); lra.
Defined.

(** Behind the camera (positive view depth) the computed point size is
    negative. *)
Theorem pointSize_behind_camera (viewZ : R) :
  0 < viewZ -> exists s : R, pointSize viewZ = Some s /\ s < 0.
Proof.
  intros Hz. exists (3.0 * (15.0 / - viewZ)).
  assert (P : 0 < / viewZ) by (apply Rinv_0_lt_compat; lra).
  unfold pointSize, fdiv.
  destruct (Req_dec_T (- viewZ) 0) as [E | N]; [lra |].
  split; [reflexivity |].
  unfold Rdiv. rewrite Rinv_opp. nra.
Qed.

Lemma pointSize_behind_camera_witness :
  exists s : R, pointSize 15 = Some s /\ s < 0.
Proof.
  apply (pointSize_behind_camera 15). lra.
Defined.

End VertexShaderMore.

(** ** Further properties of the fragment shader *)

Module FragmentShaderMore.
Import FragmentShader Samples FragmentShaderFacts.

Lemma sqrt_quarter : sqrt 0.25 = 0.5.
Proof.
  replace 0.25 with (0.5 * 0.5) by lra. apply sqrt_square. lra.
Qed.

(** The drawn part of a point is the closed disc of radius 0.5 about the
    centre of its square: a fragment is discarded exactly when the sum of
    its squared offsets from (0.5, 0.5) is greater than 0.25. *)
Theorem discard_outside_disc (u : Uniforms) (e : R) (p : vec2) :
  FragmentShader.main u e p = None
  <-> (v2x p - 0.5) * (v2x p - 0.5) + (v2y p - 0.5) * (v2y p - 0.5) > 0.25.
Proof.
  rewrite main_discarded.
  unfold distanceToCenter, distance, length, sub2, splat2. cbn [v2x v2y].
  set (q := (v2x p - 0.5) * (v2x p - 0.5) + (v2y p - 0.5) * (v2y p - 0.5)).
  assert (Hq : 0 <= q).
  { pose proof (Rle_0_sqr (v2x p - 0.5)). pose proof (Rle_0_sqr (v2y p - 0.5)).
    unfold q, Rsqr in *. lra. }
  split; intros H.
  - destruct (Rle_or_lt q 0.25) as [L | G]; [| lra].
    pose proof (sqrt_le_1 q 0.25 Hq ltac:(lra) L) as S.
    rewrite sqrt_quarter in S. lra.
  - pose proof (sqrt_lt_1 0.25 q ltac:(lra) Hq ltac:(lra)) as S.
    rewrite sqrt_quarter in S. lra.
Qed.

(** A fragment and its mirror image through the centre of the point are
    discarded together or drawn together, with the same colour. *)
Theorem main_point_symmetric (u : Uniforms) (e : R) (p : vec2) :
  FragmentShader.main u e (Vec2 (1 - v2x p) (1 - v2y p))
  = FragmentShader.main u e p.
Proof.
  assert (E : distanceToCenter (Vec2 (1 - v2x p) (1 - v2y p)) = distanceToCenter p).
  { unfold distanceToCenter, distance, length, sub2, splat2. cbn [v2x v2y].
    f_equal. lra. }
  unfold FragmentShader.main, discards. rewrite E. reflexivity.
Qed.

End FragmentShaderMore.

(** ** Further properties of the hover tracker *)

Module WaveParticlesMore.
Import WaveParticles Samples WaveParticlesFacts.

(** Until the material is attached the frame callback returns at once:
    any number of frames leaves the component exactly as it was. *)
Theorem frames_before_attach (c : Component) (states : list FrameState) :
  materialRef c = false -> run c (map Frame states) = c.
Proof.
  intros HM. induction states as [| st states IH].
  - reflexivity.
  - change (run c (map Frame (st :: states)))
      with (run (useFrame c st) (map Frame states)).
    assert (E : useFrame c st = c) by (unfold useFrame; rewrite HM; reflexivity).
    rewrite E. exact IH.
Qed.

Lemma frames_before_attach_witness :
  run (initial white) (map Frame [sample_host 0; sample_host 1]) = initial white.
Proof.
  apply (frames_before_attach (initial white) [sample_host 0; sample_host 1]).
  reflexivity.
Defined.

Lemma step_waveParameters (c : Component) (e : Event) :
  waveParameters (material (step c e)) = waveParameters (material c).
Proof.
  destruct e; try reflexivity.
  cbn [step]. unfold useFrame.
  destruct (materialRef c), (hovered c); reflexivity.
Qed.

Lemma run_waveParameters (es : list Event) (c : Component) :
  waveParameters (material (run c es)) = waveParameters (material c).
Proof.
  revert c. induction es as [| e es IH]; intros c.
  - reflexivity.
  - change (run c (e :: es)) with (run (step c e) es).
    rewrite IH. apply step_waveParameters.
Qed.

(** The colour, speed, noise density, noise strength, frequency and
    amplitude are never written after construction: after any sequence of
    events they are the colour prop, 0.8, 1.5, 0.2, 0.5 and 1.2. *)
Theorem wave_parameters_constant (color : vec3) (es : list Event) :
  uColor (material (run (initial color) es)) = color
  /\ uSpeed (material (run (initial color) es)) = 0.8
  /\ uNoiseDensity (material (run (initial color) es)) = 1.5
  /\ uNoiseStrength (material (run (initial color) es)) = 0.2
  /\ uFrequency (material (run (initial color) es)) = 0.5
  /\ uAmplitude (material (run (initial color) es)) = 1.2.
Proof.
  pose proof (run_waveParameters es (initial color)) as H.
  unfold waveParameters in H. cbn [initial material uniforms uColor uSpeed
    uNoiseDensity uNoiseStrength uFrequency uAmplitude] in H.
  injection H as H1 H2 H3 H4 H5 H6. repeat split; assumption.
Qed.

Lemma step_normalised (c : Component) (e : Event) :
  (forall st, e = Frame st -> normalised (pointer st)) ->
  normalised (pointerPosition c) -> normalised (pointerPosition (step c e)).
Proof.
  intros He Hc. destruct e as [| | | | st]; try exact Hc.
  cbn [step]. unfold useFrame, pointerPosition in *.
  destruct (materialRef c); [| exact Hc].
  destruct (hovered c); [| exact Hc].
  cbn. specialize (He st eq_refl). destruct (pointer st). exact He.
Qed.

Lemma run_normalised (es : list Event) (c : Component) :
  (forall st, In (Frame st) es -> normalised (pointer st)) ->
  normalised (pointerPosition c) -> normalised (pointerPosition (run c es)).
Proof.
  revert c. induction es as [| e es IH]; intros c Hes Hc.
  - exact Hc.
  - change (run c (e :: es)) with (run (step c e) es).
    apply IH.
    + intros st Hin. apply Hes. now right.
    + apply step_normalised; [| exact Hc].
      intros st ->. apply Hes. now left.
Qed.

(** If every frame's pointer sample lies in [-1,1]^2, so does the pointer
    position the shader sees, after any sequence of events. *)
Theorem pointer_stays_normalised (color : vec3) (es : list Event) :
  (forall st, In (Frame st) es -> normalised (pointer st)) ->
  normalised (pointerPosition (run (initial color) es)).
Proof.
  intros Hes. apply run_normalised; [exact Hes |].
  unfold normalised. cbn. lra.
Qed.

Lemma pointer_stays_normalised_witness :
  normalised (pointerPosition
                (run (initial white) [Attach; PointerOver; Frame (sample_host 0)])).
Proof.
  apply (pointer_stays_normalised white [Attach; PointerOver; Frame (sample_host 0)]).
  intros st [H | [H | [H | []]]]; try discriminate.
  injection H as <-. unfold normalised. cbn. lra.
Defined.

(** No event moves the hover intensity by more than a tenth: pointer
    events leave it alone and a frame covers a tenth of the way to the
    target. *)
Theorem intensity_step_small (c : Component) (e : Event) :
  0 <= hoverIntensity c <= 1 ->
  Rabs (hoverIntensity (step c e) - hoverIntensity c) <= 0.1.
Proof.
  intros H. apply Rabs_le.
  destruct e as [| | | | st];
    try (unfold hoverIntensity in *; cbn; lra).
  cbn [step]. rewrite useFrame_hoverIntensity.
  destruct (materialRef c), (hovered c); unfold lerp; lra.
Qed.

Lemma intensity_step_small_witness :
  Rabs (hoverIntensity (step (attached true 0.5) (Frame (sample_host 0)))
        - hoverIntensity (attached true 0.5)) <= 0.1.
Proof.
  apply (intensity_step_small (attached true 0.5) (Frame (sample_host 0))).
  cbn. lra.
Defined.

Lemma ticks_targetHover (n : nat) (host : nat -> FrameState) (c : Component) :
  targetHover (ticks n host c) = targetHover c.
Proof.
  unfold targetHover. destruct (ticks_flags n host c) as [F _]. now rewrite F.
Qed.

Lemma pow_09_range (k : nat) : 0 < 0.9 ^ k <= 1.
Proof.
  induction k as [| k IH]; cbn [pow]; lra.
Qed.

Lemma ticks_gap (n : nat) (host : nat -> FrameState) (c : Component) :
  materialRef c = true ->
  hoverIntensity (ticks n host c) - targetHover c
  = (hoverIntensity c - targetHover c) * 0.9 ^ n.
Proof.
  intros HM. induction n as [| n IH]; cbn [ticks pow].
  - lra.
  - destruct (ticks_flags n host c) as [F1 F2].
    rewrite useFrame_hoverIntensity, F2, HM.
    fold (targetHover (ticks n host c)). rewrite ticks_targetHover.
    unfold lerp. lra.
Qed.

(** With the material attached and no pointer event in between, after n
    frames the distance of the hover intensity to its target has shrunk by
    the factor 0.9^n; the intensity never gets farther from the target
    than it started. *)
Theorem hover_closed_form (n : nat) (host : nat -> FrameState) (c : Component) :
  materialRef c = true ->
  hoverIntensity (ticks n host c)
  = targetHover c + (hoverIntensity c - targetHover c) * 0.9 ^ n
  /\ Rabs (hoverIntensity (ticks n host c) - targetHover c)
     <= Rabs (hoverIntensity c - targetHover c).
Proof.
  intros HM. pose proof (ticks_gap n host c HM) as G.
  split; [lra |].
  rewrite G, Rabs_mult.
  pose proof (pow_09_range n) as P.
  rewrite (Rabs_pos_eq (0.9 ^ n)) by lra.
  pose proof (Rabs_pos (hoverIntensity c - targetHover c)). nra.
Qed.

Lemma hover_closed_form_witness :
  hoverIntensity (ticks 3 sample_host (attached true 0))
  = targetHover (attached true 0)
    + (hoverIntensity (attached true 0) - targetHover (attached true 0)) * 0.9 ^ 3
  /\ Rabs (hoverIntensity (ticks 3 sample_host (attached true 0))
           - targetHover (attached true 0))
     <= Rabs (hoverIntensity (attached true 0) - targetHover (attached true 0)).
Proof.
  apply (hover_closed_form 3 sample_host (attached true 0)). reflexivity.
Defined.

Lemma pow_09_66 : 0.9 ^ 66 < 0.001.
Proof. cbn [pow]. lra. Qed.

Lemma pow_09_65 : 0.001 < 0.9 ^ 65.
Proof. cbn [pow]. lra. Qed.

Lemma pow_09_from (m n : nat) : (m <= n)%nat -> 0.9 ^ n <= 0.9 ^ m.
Proof.
  intros Hmn. replace n with (m + (n - m))%nat by lia.
  rewrite pow_add.
  pose proof (pow_09_range m). pose proof (pow_09_range (n - m)). nra.
Qed.

(** With the material attached, 66 frames or more without a pointer event
    bring the hover intensity, from anywhere in [0,1], within 0.001 of its
    target. *)
Theorem hover_settles (n : nat) (host : nat -> FrameState) (c : Component) :
  materialRef c = true ->
  0 <= hoverIntensity c <= 1 ->
  (66 <= n)%nat ->
  Rabs (hoverIntensity (ticks n host c) - targetHover c) <= 0.001.
Proof.
  intros HM Hh Hn.
  pose proof (pow_09_from 66 n Hn) as P. pose proof pow_09_66 as P66.
  pose proof (pow_09_range n) as Pn.
  rewrite (ticks_gap n host c HM). apply Rabs_le.
  unfold targetHover. destruct (hovered c); nra.
Qed.

Lemma hover_settles_witness :
  Rabs (hoverIntensity (ticks 66 sample_host (attached true 0))
        - targetHover (attached true 0)) <= 0.001.
Proof.
  apply (hover_settles 66 sample_host (attached true 0)).
  - reflexivity.
  - cbn. lra.
  - apply le_n.
Defined.

(** A full fade-out takes no fewer: starting from intensity 1 and not
    hovered, the intensity is still above 0.001 on each of the first 65
    frames. *)
Theorem fade_needs_66_frames (n : nat) (host : nat -> FrameState) (c : Component) :
  materialRef c = true ->
  hovered c = false ->
  hoverIntensity c = 1 ->
  (n <= 65)%nat ->
  0.001 < hoverIntensity (ticks n host c).
Proof.
  intros HM HH H1 Hn.
  rewrite (ticks_decay n host c HM HH), H1.
  pose proof (pow_09_from n 65 Hn). pose proof pow_09_65. lra.
Qed.

Lemma fade_needs_66_frames_witness :
  0.001 < hoverIntensity (ticks 60 sample_host (attached false 1)).
Proof.
  apply (fade_needs_66_frames 60 sample_host (attached false 1));
    try reflexivity.
  repeat constructor.
Defined.

(** Whatever the events so far, a vertex whose world base position has
    z = 0 is shaded with an alpha in [0.42, 1.18]: the amplitude is still
    1.2 and the hover intensity still in [0,1]. *)
Theorem reachable_alpha_range
        (color : vec3) (es : list Event) (i : VertexShader.Inputs) :
  v4z (VertexShader.modelPosition0 i) = 0 ->
  0.42 <= FragmentShader.alpha
            (VertexShader.vElevation
               (VertexShader.main (material (run (initial color) es)) i))
       <= 1.18.
Proof.
  intros Hz.
  set (u := material (run (initial color) es)).
  assert (HA : uAmplitude u = 1.2).
  { pose proof (run_waveParameters es (initial color)) as H.
    unfold waveParameters in H. injection H as _ _ _ _ _ H. exact H. }
  assert (Hh : 0 <= uHoverState u <= 1).
  { apply (run_range es (initial color)). cbn. lra. }
  rewrite VertexShaderFacts.main_vElevation, VertexShaderFacts.displace_z, Hz.
  pose proof (VertexShaderFacts.elevation_bound u
                (VertexShader.modelPosition0 i) ltac:(lra)) as He.
  pose proof (VertexShaderFacts.distortion_bound u _
                (VertexShaderFacts.dist_nonneg u (VertexShader.modelPosition0 i)) Hh) as Hd.
  unfold FragmentShader.alpha. lra.
Qed.

Lemma reachable_alpha_range_witness :
  0.42 <= FragmentShader.alpha
            (VertexShader.vElevation
               (VertexShader.main
                  (material (run (initial white) [Attach; PointerOver; Frame (sample_host 0)]))
                  (plain_inputs 1 2)))
       <= 1.18.
Proof.
  apply (reachable_alpha_range white [Attach; PointerOver; Frame (sample_host 0)]
                               (plain_inputs 1 2)).
  rewrite VertexShaderFacts.plain_modelPosition0. reflexivity.
Defined.

End WaveParticlesMore.

(** ** The shaders under the scene's own model matrix *)

Module SceneFacts.
Import VertexShader FragmentShader WaveParticles Scene Samples.

Lemma sin_pointsRotationX : sin pointsRotationX = - (sqrt 3 / 2).
Proof.
  unfold pointsRotationX. replace (- PI / 3) with (- (PI / 3)) by lra.
  rewrite sin_neg, sin_PI3. reflexivity.
Qed.

Lemma cos_pointsRotationX : cos pointsRotationX = 1 / 2.
Proof.
  unfold pointsRotationX. replace (- PI / 3) with (- (PI / 3)) by lra.
  rewrite cos_neg. apply cos_PI3.
Qed.

Lemma sqrt3_lower : 1.73 < sqrt 3.
Proof.
  rewrite <- (sqrt_square 1.73) by lra.
  apply sqrt_lt_1; lra.
Qed.

Lemma plane_modelPosition0 (x y : R) (uv0 : vec2) (view projection : mat4) :
  modelPosition0 (planeInputs x y uv0 view projection)
  = Vec4 x (y / 2) (- (sqrt 3 / 2) * y) 1.
Proof.
  unfold modelPosition0, planeInputs, pointsModelMatrix, rotationX, mulMV,
    dot4, vec4_of.
  cbn [modelMatrix position row0 row1 row2 row3 v4x v4y v4z v4w v3x v3y v3z].
  rewrite sin_pointsRotationX, cos_pointsRotationX.
  f_equal; lra.
Qed.

(** The rotation tilts the plane: the plane point (x, y, 0) stands in the
    world at (x, y/2, -(sqrt 3 / 2) y), so its world z is 0 only on the
    line y = 0. *)
Theorem plane_world_position (x y : R) (uv0 : vec2) (view projection : mat4) :
  modelPosition0 (planeInputs x y uv0 view projection)
  = Vec4 x (y / 2) (- (sqrt 3 / 2) * y) 1
  /\ (v4z (modelPosition0 (planeInputs x y uv0 view projection)) = 0 <-> y = 0).
Proof.
  split; [apply plane_modelPosition0 |].
  rewrite plane_modelPosition0. cbn [v4z]. pose proof sqrt3_lower as S.
  split; intros H; [nra | subst y; lra].
Qed.

Lemma plane_vElevation (u : Uniforms) (x y : R) (uv0 : vec2) (view projection : mat4) :
  uAmplitude u = 1.2 ->
  0 <= uHoverState u <= 1 ->
  - 3.8 <= vElevation (VertexShader.main u (planeInputs x y uv0 view projection))
           + sqrt 3 / 2 * y <= 3.8.
Proof.
  intros HA Hh.
  rewrite VertexShaderFacts.main_vElevation, VertexShaderFacts.displace_z.
  set (mp := modelPosition0 (planeInputs x y uv0 view projection)).
  assert (Ez : v4z mp = - (sqrt 3 / 2) * y).
  { unfold mp. rewrite plane_modelPosition0. reflexivity. }
  pose proof (VertexShaderFacts.elevation_bound u mp ltac:(lra)) as He.
  pose proof (VertexShaderFacts.distortion_bound u _
                (VertexShaderFacts.dist_nonneg u mp) Hh) as Hd.
  lra.
Qed.

(** In the scene the alpha of a plane point follows its height on the
    tilted plane: with amplitude 1.2 and hover intensity in [0,1] it lies
    within 0.38 of 0.8 - (sqrt 3 / 20) y. *)
Theorem plane_alpha_band
        (u : Uniforms) (x y : R) (uv0 : vec2) (view projection : mat4) :
  uAmplitude u = 1.2 ->
  0 <= uHoverState u <= 1 ->
  0.42 - sqrt 3 / 20 * y
  <= alpha (vElevation (VertexShader.main u (planeInputs x y uv0 view projection)))
  <= 1.18 - sqrt 3 / 20 * y.
Proof.
  intros HA Hh.
  pose proof (plane_vElevation u x y uv0 view projection HA Hh) as B.
  unfold alpha. lra.
Qed.

Lemma plane_alpha_band_witness :
  0.42 - sqrt 3 / 20 * 4
  <= alpha (vElevation
              (VertexShader.main default_uniforms (planeInputs 1 4 (Vec2 0 0) identity identity)))
  <= 1.18 - sqrt 3 / 20 * 4.
Proof.
  apply (plane_alpha_band default_uniforms 1 4 (Vec2 0 0) identity identity);
    cbn; lra.
Defined.

Lemma reachable_uniforms (color : vec3) (es : list Event) :
  uAmplitude (material (run (initial color) es)) = 1.2
  /\ 0 <= uHoverState (material (run (initial color) es)) <= 1.
Proof.
  split.
  - pose proof (WaveParticlesMore.run_waveParameters es (initial color)) as H.
    unfold waveParameters in H. injection H as _ _ _ _ _ H. exact H.
  - apply (WaveParticlesFacts.run_range es (initial color)). cbn. lra.
Qed.

(** Whatever the events so far, every point of the plane's top edge
    (y = planeHeight / 2) is shaded with an alpha below 0.32 and every
    point of its bottom edge with an alpha above 1.28, hence above 1. *)
Theorem plane_edges_alpha
        (color : vec3) (es : list Event) (x : R) (uv0 : vec2) (view projection : mat4) :
  alpha (vElevation (VertexShader.main (material (run (initial color) es))
                       (planeInputs x (planeHeight / 2) uv0 view projection)))
  < 0.32
  /\ 1.28
     < alpha (vElevation (VertexShader.main (material (run (initial color) es))
                            (planeInputs x (- (planeHeight / 2)) uv0 view projection))).
Proof.
  destruct (reachable_uniforms color es) as [HA Hh].
  pose proof (plane_vElevation _ x (planeHeight / 2) uv0 view projection HA Hh) as T.
  pose proof (plane_vElevation _ x (- (planeHeight / 2)) uv0 view projection HA Hh) as B.
  pose proof sqrt3_lower as S.
  unfold alpha, planeHeight in *. split; lra.
Qed.

Lemma sin_at_minus_PI2 (a : R) : a = - (PI / 2) -> sin a = -1.
Proof. intros ->. rewrite sin_neg, sin_PI2. reflexivity. Qed.

(** The alpha does go negative in the scene: on the first frame after the
    material is attached, if it comes at the time [troughTime] and the
    pointer has not entered, the top-left corner of the plane gets an
    alpha below 0. *)
Theorem plane_corner_alpha_negative
        (p : vec2) (color : vec3) (uv0 : vec2) (view projection : mat4) :
  0 < troughTime
  /\ alpha (vElevation
              (VertexShader.main
                 (material (run (initial color) [Attach; Frame (mkFrameState troughTime p)]))
                 (planeInputs (- (planeWidth / 2)) (planeHeight / 2) uv0 view projection)))
     < 0.
Proof.
  split.
  - unfold troughTime, planeWidth. pose proof PI_4. lra.
  - rewrite VertexShaderFacts.main_vElevation, VertexShaderFacts.displace_z.
    rewrite plane_modelPosition0.
    set (u := material (run (initial color) [Attach; Frame (mkFrameState troughTime p)])).
    assert (Hh : uHoverState u = 0) by (cbn; unfold lerp; lra).
    rewrite (VertexShaderFacts.distortion_gated u _ Hh).
    unfold elevation. cbn [v4x v4y v4z]. 
    assert (Ht : uTime u = troughTime) by reflexivity.
    assert (Hs : uSpeed u = 0.8) by reflexivity.
    assert (Hf : uFrequency u = 0.5) by reflexivity.
    assert (HA : uAmplitude u = 1.2) by reflexivity.
    rewrite Ht, Hs, Hf, HA.
    rewrite (sin_at_minus_PI2 (- (planeWidth / 2) * 0.5 + troughTime * 0.8))
      by (unfold troughTime, planeWidth; lra).
    pose proof (SIN_bound (planeHeight / 2 / 2 * 0.5 * 0.5 + troughTime * 0.8 * 0.5)) as B.
    pose proof sqrt3_lower as S.
    unfold alpha, planeHeight in *. lra.
Qed.

End SceneFacts.
